(** * rests.typescript.type_transpiler: the TypeScript type transpiler

    A shallow embedding of [TypeTranspiler] (src/rests/typescript/
    type_transpiler.py) and the properties of its dispatch algorithm.

    The Python objects the transpiler inspects are modelled by [pyobj]; the
    three class-level tables are the components of a [registry], which the
    embedded methods read through a small state-and-exception monad, the way
    the source reads [cls.ATOMIC_TYPES], [cls.CONTAINER_TYPES] and
    [cls.COMPOSITE_TYPES] at every access. *)

From Stdlib Require Import String List Bool.
Import ListNotations.
Open Scope string_scope.

#[local] Set Warnings "-register-all".

(** ** Python objects *)

Module Py.

(** A class object.  [cname] is its [__name__] (classes are identified by
    it: distinct classes are assumed to carry distinct names), [cmro] the
    names of the classes of its [__mro__] (itself first), [cmeta] the names
    of the [__mro__] of its metaclass, [chash] tells whether its instances
    can be hashed ([__hash__] is not [None], as it is for [dict], [list]
    and [set]). *)
Record pyclass : Type := PyClass {
  cname : string;
  cmro : list string;
  cmeta : list string;
  chash : bool
}.

(** The values met by the transpiler:
    - [ONone]: the object [None];
    - [OClass c]: the class [c] itself;
    - [OInst c rm]: an instance of [c] that is neither a tuple nor iterable
      (a field instance, a model instance, a number, ...) and different
      from every table key; it can be hashed when [chash c] says so; [rm] is
      the class held by its [related_model] attribute, when it has one;
    - [OSeq c items]: an instance of [c] that is a sized container other
      than a tuple (a list, a dict, a set, a str, ...); iterating it yields
      [items];
    - [OForm n]: a special form or unsubscripted alias of [typing]
      ([Union], [List], ...), identified by its name;
    - [OGeneric o args]: a parameterized descriptor such as [List[int]]
      (as from Python 3.7 on, neither it nor a form is a class);
    - [OTuple items]: a tuple.
    Classes and [typing] forms are not iterable (no metaclass modelled here
    defines [__iter__]; forms as from Python 3.7 to 3.10). *)
Inductive pyobj : Type :=
| ONone
| OClass (c : pyclass)
| OInst (c : pyclass) (related_model : option pyclass)
| OSeq (c : pyclass) (items : list pyobj)
| OForm (name : string)
| OGeneric (origin : pyobj) (args : list pyobj)
| OTuple (items : list pyobj).

Fixpoint mem (x : string) (l : list string) : bool :=
  match l with
  | [] => false
  | y :: l' => String.eqb x y || mem x l'
  end.

Definition same_class (a b : pyclass) : bool := String.eqb (cname a) (cname b).

(** The classes of the objects that are not instances of a modelled class. *)
Definition builtin (name : string) : pyclass :=
  PyClass name [name; "object"] ["type"; "object"] true.

Definition NoneType : pyclass := builtin "NoneType".
Definition tuple : pyclass := builtin "tuple".
Definition SpecialForm : pyclass := builtin "_SpecialForm".
Definition GenericAlias : pyclass := builtin "_GenericAlias".

(** The class of an object; the class of a class is its metaclass. *)
Definition type_of (x : pyobj) : pyclass :=
  match x with
  | ONone => NoneType
  | OClass c => PyClass (hd "type" (cmeta c)) (cmeta c) ["type"; "object"] true
  | OInst c _ => c
  | OSeq c _ => c
  | OForm _ => SpecialForm
  | OGeneric _ _ => GenericAlias
  | OTuple _ => tuple
  end.

(** [type(x)]. *)
Definition type (x : pyobj) : pyobj := OClass (type_of x).

(** [isinstance(x, k)] for a class [k]: [k] is in the [__mro__] of
    [type(x)]. *)
Definition isinstance (x : pyobj) (k : pyclass) : bool :=
  mem (cname k) (cmro (type_of x)).

(** [inspect.isclass(x)]. *)
Definition isclass (x : pyobj) : bool :=
  match x with OClass _ => true | _ => false end.

(** [isinstance(x, tuple)]. *)
Definition is_tuple (x : pyobj) : bool :=
  match x with OTuple _ => true | _ => false end.

(** Truth value of an object, as tested by [not origin_type]: [None], the
    empty tuple and the empty containers are false; classes, forms and the
    other instances modelled here are true. *)
Definition truthy (x : pyobj) : bool :=
  match x with
  | ONone => false
  | OTuple [] => false
  | OSeq _ [] => false
  | _ => true
  end.

(** Whether [hash(x)] returns: an instance is hashed by its class, a tuple
    and a parameterized descriptor by their components. *)
Fixpoint hashable (x : pyobj) : bool :=
  match x with
  | ONone => true
  | OClass _ => true
  | OInst c _ => chash c
  | OSeq c _ => chash c
  | OForm _ => true
  | OGeneric origin args => hashable origin && forallb hashable args
  | OTuple items => forallb hashable items
  end.

(** [x == k] for a table key [k] (a class, a [typing] form or [None]):
    these compare by identity. *)
Definition same_key (k x : pyobj) : bool :=
  match k, x with
  | ONone, ONone => true
  | OClass a, OClass b => same_class a b
  | OForm a, OForm b => String.eqb a b
  | _, _ => false
  end.

(** Induction on [pyobj] that reaches inside tuples and argument lists. *)
Section PyobjInd.
Variable P : pyobj -> Prop.
Hypothesis HNone : P ONone.
Hypothesis HClass : forall c, P (OClass c).
Hypothesis HInst : forall c rm, P (OInst c rm).
Hypothesis HSeq : forall c items, Forall P items -> P (OSeq c items).
Hypothesis HForm : forall n, P (OForm n).
Hypothesis HGeneric : forall o args, P o -> Forall P args -> P (OGeneric o args).
Hypothesis HTuple : forall items, Forall P items -> P (OTuple items).

Fixpoint pyobj_nested_ind (x : pyobj) : P x :=
  match x with
  | ONone => HNone
  | OClass c => HClass c
  | OInst c rm => HInst c rm
  | OSeq c items =>
      HSeq c items
        ((fix go (l : list pyobj) : Forall P l :=
            match l with
            | [] => Forall_nil P
            | y :: l' => Forall_cons y (pyobj_nested_ind y) (go l')
            end) items)
  | OForm n => HForm n
  | OGeneric o args =>
      HGeneric o args (pyobj_nested_ind o)
        ((fix go (l : list pyobj) : Forall P l :=
            match l with
            | [] => Forall_nil P
            | y :: l' => Forall_cons y (pyobj_nested_ind y) (go l')
            end) args)
  | OTuple items =>
      HTuple items
        ((fix go (l : list pyobj) : Forall P l :=
            match l with
            | [] => Forall_nil P
            | y :: l' => Forall_cons y (pyobj_nested_ind y) (go l')
            end) items)
  end.
End PyobjInd.

End Py.
Import Py.

(** ** Exceptions, results and the monad of the class methods *)

(** The exceptions the code can raise.  [TranspileError d] stands for
    [TranspileError("Unable to find an atomic type for {}".format(d))]: it
    carries the descriptor its message is built from. *)
Inductive exn : Type :=
| TranspileError (descriptor : pyobj)
| TypeError
| IndexError
| KeyError
| AttributeError.

Inductive outcome (A : Type) : Type :=
| Ok (a : A)
| Raise (e : exn).
Arguments Ok {A} a.
Arguments Raise {A} e.

(** [issubclass(a, b)] for a class [b]: [b] is in the [__mro__] of [a]; a
    [TypeError] when [a] is not a class. *)
Definition issubclass (a : pyobj) (b : pyclass) : outcome bool :=
  match a with
  | OClass c => Ok (mem (cname b) (cmro c))
  | _ => Raise TypeError
  end.

(** What a call returns to its caller: a [str], or [None] when the body of
    [_transpile] ends without a [return]. *)
Inductive rendered : Type :=
| Str (s : string)
| NoneResult.

(** [str(x)], as used by an f-string. *)
Definition format (x : rendered) : string :=
  match x with
  | Str s => s
  | NoneResult => "None"
  end.

(** A value of [ATOMIC_TYPES]: a string, or a callable applied to the
    descriptor (the source tells them apart with [hasattr(_, "__call__")]). *)
Inductive atomic_renderer : Type :=
| Literal (s : string)
| Function (f : pyobj -> outcome rendered).

Definition atomic_key : Type := option pyclass.

Definition same_atomic_key (a b : atomic_key) : bool :=
  match a, b with
  | None, None => true
  | Some x, Some y => same_class x y
  | _, _ => false
  end.

(** The object a key of [ATOMIC_TYPES] is. *)
Definition atomic_key_object (k : atomic_key) : pyobj :=
  match k with
  | None => ONone
  | Some c => OClass c
  end.

(** The class object [cls] the class methods receive: its three table
    attributes, each an association list in definition order. *)
Module cls.
Record registry : Type := Registry {
  ATOMIC_TYPES : list (atomic_key * atomic_renderer);
  CONTAINER_TYPES : list (pyobj * (rendered -> outcome rendered));
  COMPOSITE_TYPES : list (pyobj * (list rendered -> outcome rendered))
}.
End cls.
Definition registry : Type := cls.registry.

(** A computation runs in a state of the class object and ends with a value
    or an exception, and a state of the class object. *)
Definition M (A : Type) : Type := registry -> outcome A * registry.

Definition ret {A} (a : A) : M A := fun st => (Ok a, st).
Definition raise {A} (e : exn) : M A := fun st => (Raise e, st).
Definition lift {A} (o : outcome A) : M A := fun st => (o, st).
Definition read {A} (attr : registry -> A) : M A := fun st => (Ok (attr st), st).
Definition bind {A B} (m : M A) (k : A -> M B) : M B :=
  fun st =>
    match m st with
    | (Ok a, st') => k a st'
    | (Raise e, st') => (Raise e, st')
    end.

Declare Scope py_scope.
Delimit Scope py_scope with py.
Notation "x <- m ;; k" := (bind m (fun x => k))
  (at level 100, m at next level, right associativity) : py_scope.
Open Scope py_scope.

(** [[f(x) for x in l]], left to right, stopping at the first exception. *)
Section Comprehension.
Context {A B : Type}.
Variable f : A -> M B.
Fixpoint comprehension (l : list A) : M (list B) :=
  match l with
  | [] => ret []
  | x :: l' =>
      y <- f x ;;
      ys <- comprehension l' ;;
      ret (y :: ys)
  end.
End Comprehension.

(** [d[k]] and [k in d] on a table. *)
Fixpoint getitem_atomic (k : atomic_key) (d : list (atomic_key * atomic_renderer))
  : outcome atomic_renderer :=
  match d with
  | [] => Raise KeyError
  | (k', v) :: d' => if same_atomic_key k' k then Ok v else getitem_atomic k d'
  end.

Fixpoint find_key {V : Type} (x : pyobj) (d : list (pyobj * V)) : option V :=
  match d with
  | [] => None
  | (k, v) :: d' => if same_key k x then Some v else find_key x d'
  end.

(** Whether [x] equals a key of the table. *)
Definition contains {V : Type} (x : pyobj) (d : list (pyobj * V)) : bool :=
  match find_key x d with Some _ => true | None => false end.

(** [x in d]: the table hashes [x] first, a [TypeError] when [x] cannot be
    hashed. *)
Definition in_ {V : Type} (x : pyobj) (d : list (pyobj * V)) : outcome bool :=
  if hashable x then Ok (contains x d) else Raise TypeError.

(** [d[x]]: a [TypeError] when [x] cannot be hashed, a [KeyError] when it
    is no key. *)
Definition getitem {V : Type} (x : pyobj) (d : list (pyobj * V)) : outcome V :=
  if hashable x then
    match find_key x d with Some v => Ok v | None => Raise KeyError end
  else Raise TypeError.

(** [sep.join(x)]: a [TypeError] when an item is not a [str]. *)
Fixpoint strings (x : list rendered) : option (list string) :=
  match x with
  | [] => Some []
  | Str s :: x' =>
      match strings x' with Some l => Some (s :: l) | None => None end
  | NoneResult :: _ => None
  end.

Definition join (sep : string) (x : list rendered) : outcome rendered :=
  match strings x with
  | Some l => Ok (Str (String.concat sep l))
  | None => Raise TypeError
  end.

(** ** The collaborators of the module *)

(** Modelled from the spec: the token constants of [rests.typescript.types],
    which is not part of the sources at hand.  The spec fixes them as the
    target language's own keywords ("string", "number", "boolean", "object",
    "array", "null", "undefined", "promise", "date") and spells the array
    token [Array] in its renderings ("Array<string>"). *)
Module types.
Definition STRING : string := "string".
Definition NUMBER : string := "number".
Definition BOOLEAN : string := "boolean".
Definition OBJECT : string := "object".
Definition NULL : string := "null".
Definition UNDEFINED : string := "undefined".
Definition DATE : string := "Date".
Definition ARRAY : string := "Array".
Definition PROMISE : string := "Promise".
(** Modelled from the spec: [types.Undefined] and [types.Promise], the
    marker classes the tables use as keys. *)
Definition Undefined : pyclass := builtin "Undefined".
Definition Promise : pyclass := builtin "Promise".
End types.

(** Modelled from the spec: the introspection facility
    [rests.core.utils.typing_inspect], which is not part of the sources at
    hand.  Given a descriptor it returns its origin marker, or [None] for a
    descriptor that is not parameterized, and the ordered tuple of its child
    descriptors. *)
Module typing_inspect.
Definition get_origin (tp : pyobj) : pyobj :=
  match tp with
  | OGeneric origin _ => origin
  | _ => ONone
  end.
Definition get_args (tp : pyobj) : pyobj :=
  match tp with
  | OGeneric _ args => OTuple args
  | _ => OTuple []
  end.
End typing_inspect.

(** The classes of Python and of Django named by the tables.  Only the name
    of a key takes part in a lookup or in an [isinstance] test; the
    ancestors listed are those of the libraries' class definitions. *)
Module builtins.
Definition str : pyclass := builtin "str".
Definition int : pyclass := builtin "int".
Definition float : pyclass := builtin "float".
Definition bool : pyclass := PyClass "bool" ["bool"; "int"; "object"] ["type"; "object"] true.
Definition dict : pyclass := PyClass "dict" ["dict"; "object"] ["type"; "object"] false.
Definition list : pyclass := PyClass "list" ["list"; "object"] ["type"; "object"] false.
Definition datetime : pyclass := PyClass "datetime" ["datetime"; "date"; "object"] ["type"; "object"] true.
End builtins.

Module typing.
Definition Union : pyobj := OForm "Union".
Definition List : pyobj := OForm "List".
End typing.

Module models.
Definition Model : pyclass :=
  PyClass "Model" ["Model"; "object"] ["ModelBase"; "type"; "object"] true.
(** A field class: its own name, the field classes it derives from, then
    [Field]. *)
Definition field (name : string) (parents : list string) : pyclass :=
  PyClass name (name :: parents ++ ["Field"; "object"]) ["type"; "object"] true.
Definition CharField := field "CharField" [].
Definition FileField := field "FileField" [].
Definition TextField := field "TextField" [].
Definition UUIDField := field "UUIDField" [].
Definition SlugField := field "SlugField" ["CharField"].
Definition IntegerField := field "IntegerField" [].
Definition SmallIntegerField := field "SmallIntegerField" ["IntegerField"].
Definition BigIntegerField := field "BigIntegerField" ["IntegerField"].
Definition EmailField := field "EmailField" ["CharField"].
Definition URLField := field "URLField" ["CharField"].
Definition PositiveIntegerField := field "PositiveIntegerField" ["IntegerField"].
Definition PositiveSmallIntegerField := field "PositiveSmallIntegerField" ["IntegerField"].
Definition DecimalField := field "DecimalField" [].
Definition FloatField := field "FloatField" [].
Definition AutoField := field "AutoField" [].
Definition BigAutoField := field "BigAutoField" ["AutoField"].
Definition BooleanField := field "BooleanField" [].
Definition NullBooleanField := field "NullBooleanField" [].
Definition DateField := field "DateField" [].
Definition DateTimeField := field "DateTimeField" ["DateField"].
Definition ForeignKey := field "ForeignKey" ["ForeignObject"; "RelatedField"].
Definition OneToOneField := field "OneToOneField" ["ForeignKey"; "ForeignObject"; "RelatedField"].
Definition ManyToOneRel : pyclass :=
  PyClass "ManyToOneRel" ["ManyToOneRel"; "ForeignObjectRel"; "object"] ["type"; "object"] true.
Definition JSONField := field "JSONField" [].
Definition ArrayField := field "ArrayField" [].
End models.

Module lookups.
Definition In : pyclass :=
  PyClass "In" ["In"; "BuiltinLookup"; "Lookup"; "object"] ["type"; "object"] true.
Definition Range : pyclass :=
  PyClass "Range" ["Range"; "BuiltinLookup"; "Lookup"; "object"] ["type"; "object"] true.
End lookups.

Module related_lookups.
Definition RelatedIn : pyclass :=
  PyClass "RelatedIn" ["RelatedIn"; "In"; "BuiltinLookup"; "Lookup"; "object"]
    ["type"; "object"] true.
End related_lookups.

(** Attribute reads of the renderers. *)
Definition related_model (x : pyobj) : outcome pyclass :=
  match x with
  | OInst _ (Some m) => Ok m
  | _ => Raise AttributeError
  end.

Definition dunder_name (x : pyobj) : outcome rendered :=
  match x with
  | OClass c => Ok (Str (cname c))
  | _ => Raise AttributeError
  end.

(** [lambda x: x.related_model.__name__] *)
Definition related_model_name (x : pyobj) : outcome rendered :=
  match related_model x with
  | Ok m => Ok (Str (cname m))
  | Raise e => Raise e
  end.

(** ** class TypeTranspiler *)

Module TypeTranspiler.

Definition ATOMIC_TYPES : list (atomic_key * atomic_renderer) :=
  [ (Some builtins.str, Literal types.STRING);
    (Some builtins.int, Literal types.NUMBER);
    (Some builtins.float, Literal types.NUMBER);
    (Some builtins.bool, Literal types.BOOLEAN);
    (Some builtins.dict, Literal types.OBJECT);
    (None, Literal types.NULL);
    (Some builtins.datetime, Literal types.DATE);
    (Some types.Undefined, Literal types.UNDEFINED);
    (Some models.JSONField, Literal types.OBJECT);
    (Some models.ArrayField, Literal types.ARRAY);
    (Some models.CharField, Literal types.STRING);
    (Some models.FileField, Literal types.STRING);
    (Some models.TextField, Literal types.STRING);
    (Some models.UUIDField, Literal types.STRING);
    (Some models.SlugField, Literal types.STRING);
    (Some models.SmallIntegerField, Literal types.STRING);
    (Some models.BigIntegerField, Literal types.NUMBER);
    (Some models.EmailField, Literal types.STRING);
    (Some models.URLField, Literal types.STRING);
    (Some models.IntegerField, Literal types.NUMBER);
    (Some models.PositiveIntegerField, Literal types.NUMBER);
    (Some models.PositiveSmallIntegerField, Literal types.NUMBER);
    (Some models.DecimalField, Literal types.NUMBER);
    (Some models.FloatField, Literal types.NUMBER);
    (Some models.AutoField, Literal types.NUMBER);
    (Some models.BigAutoField, Literal types.NUMBER);
    (Some models.BooleanField, Literal types.BOOLEAN);
    (Some models.NullBooleanField, Literal (types.BOOLEAN ++ " | " ++ types.NULL));
    (Some models.DateTimeField, Literal types.DATE);
    (Some models.DateField, Literal types.DATE);
    (Some models.ForeignKey, Function related_model_name);
    (Some models.OneToOneField, Function related_model_name);
    (Some models.ManyToOneRel, Function related_model_name);
    (Some models.Model, Function dunder_name) ].

Definition CONTAINER_TYPES : list (pyobj * (rendered -> outcome rendered)) :=
  [ (typing.List, fun x => Ok (Str (types.ARRAY ++ "<" ++ format x ++ ">")));
    (OClass types.Promise, fun x => Ok (Str (types.PROMISE ++ "<" ++ format x ++ ">")));
    (OClass lookups.In, fun x => Ok (Str (format x ++ "[]")));
    (OClass related_lookups.RelatedIn, fun x => Ok (Str (format x ++ "[]")));
    (OClass lookups.Range, fun x => Ok (Str ("[" ++ format x ++ ", " ++ format x ++ "]"))) ].

Definition COMPOSITE_TYPES : list (pyobj * (list rendered -> outcome rendered)) :=
  [ (OClass tuple, fun x => join ", " x);
    (typing.Union, fun x => join " | " x) ].

(** The class object as the module defines it: the state the class methods
    start in. *)
Definition tables : registry :=
  cls.Registry ATOMIC_TYPES CONTAINER_TYPES COMPOSITE_TYPES.

Section Methods.
(** The two functions imported from [rests.core.utils.typing_inspect]. *)
Variable get_origin : pyobj -> pyobj.
Variable get_args : pyobj -> pyobj.

(** The [for] loop of [_get_atomic_type] over the keys, in table order. *)
Fixpoint _get_atomic_type_loop (type_ : pyobj) (keys : list atomic_key)
  : outcome atomic_key :=
  match keys with
  | [] => Raise (TranspileError type_)
  | atomic_type :: keys' =>
      match atomic_type with
      | None => _get_atomic_type_loop type_ keys'
      | Some k =>
          if isinstance type_ k then Ok atomic_type
          else _get_atomic_type_loop type_ keys'
      end
  end.

Definition _get_atomic_type (type_ : pyobj) : M atomic_key :=
  d <- read cls.ATOMIC_TYPES ;;
  lift (_get_atomic_type_loop type_ (map fst d)).

(** [v(type_)] for a table value [v]. *)
Definition call (v : atomic_renderer) (type_ : pyobj) : M rendered :=
  match v with
  | Function f => lift (f type_)
  | Literal _ => raise TypeError
  end.

(** The source evaluates [cls.ATOMIC_TYPES[base_type]] twice, for the
    [hasattr] test and for the value it calls or returns; both evaluations
    are kept. *)
Definition render_atomic_type (type_ : pyobj) : M rendered :=
  let base_type := type_ in
  let base_type := if negb (isclass type_) then type type_ else base_type in
  is_model <- lift (issubclass base_type models.Model) ;;
  base_type <- (if is_model : bool
                then ret (Some models.Model)
                else _get_atomic_type type_) ;;
  d <- read cls.ATOMIC_TYPES ;;
  v <- lift (getitem_atomic base_type d) ;;
  match v with
  | Function _ =>
      d <- read cls.ATOMIC_TYPES ;;
      v <- lift (getitem_atomic base_type d) ;;
      call v type_
  | Literal _ =>
      d <- read cls.ATOMIC_TYPES ;;
      v <- lift (getitem_atomic base_type d) ;;
      match v with
      | Literal s => ret (Str s)
      | Function _ => raise TypeError
      end
  end.

Fixpoint _transpile (type_ : pyobj) : M rendered :=
  match type_ with
  | OTuple items =>
      match items with
      | [] => raise IndexError
      | type_0 :: rest =>
          if is_tuple type_0 then _transpile type_0
          else
            composite <- read cls.COMPOSITE_TYPES ;;
            is_composite <- lift (in_ type_0 composite) ;;
            if is_composite : bool then
              composite <- read cls.COMPOSITE_TYPES ;;
              f <- lift (getitem type_0 composite) ;;
              match rest with
              | [] => raise IndexError
              | OTuple children :: _ =>
                  x <- comprehension _transpile children ;;
                  lift (f x)
              | OSeq _ children :: _ =>
                  x <- comprehension _transpile children ;;
                  lift (f x)
              | _ :: _ => raise TypeError
              end
            else
              container <- read cls.CONTAINER_TYPES ;;
              is_container <- lift (in_ type_0 container) ;;
              if is_container : bool then
                container <- read cls.CONTAINER_TYPES ;;
                f <- lift (getitem type_0 container) ;;
                match rest with
                | [] => raise IndexError
                | type_1 :: _ =>
                    x <- _transpile type_1 ;;
                    lift (f x)
                end
              else
                match rest with
                | [] => render_atomic_type type_0
                | _ :: _ => ret NoneResult
                end
      end
  | _ => render_atomic_type type_
  end.

Definition transpile (type_ : pyobj) : M rendered :=
  let origin_type := get_origin type_ in
  let child_types := get_args type_ in
  if negb (truthy origin_type) then render_atomic_type type_
  else _transpile (OTuple [origin_type; child_types]).

End Methods.

End TypeTranspiler.

(** [TypeTranspiler.transpile] with the two functions the module imports. *)
Definition TypeTranspiler_transpile : pyobj -> M rendered :=
  TypeTranspiler.transpile typing_inspect.get_origin typing_inspect.get_args.

(** A model class of an application and a relation to it, for the examples. *)
Module example.
Definition User : pyclass :=
  PyClass "User" ["User"; "Model"; "object"] ["ModelBase"; "type"; "object"] true.
Definition Group : pyclass :=
  PyClass "Group" ["Group"; "Model"; "object"] ["ModelBase"; "type"; "object"] true.
(** [models.ForeignKey(User)], once the relation is resolved. *)
Definition owner : pyobj := OInst models.ForeignKey (Some User).
(** [typing.Mapping] and [typing.Set]: origins no table registers. *)
Definition Mapping : pyobj := OForm "Mapping".
Definition Set_ : pyobj := OForm "Set".
End example.

(** ** What the claims speak of *)

(** A computation leaves the class object as it found it. *)
Definition preserves {A} (m : M A) : Prop := forall st, snd (m st) = st.

(** [k] is the first key of [keys] that [d] is an instance of. *)
Definition first_instance_key (d : pyobj) (keys : list atomic_key) (k : pyclass) : Prop :=
  exists before after,
    keys = (before ++ Some k :: after)%list /\
    isinstance d k = true /\
    forall k', In (Some k') before -> isinstance d k' = false.

(** The class [render_atomic_type] tests against [models.Model]. *)
Definition probe (d : pyobj) : pyobj := if negb (isclass d) then type d else d.

(** The atomic key a descriptor resolves to in the tables [st]: the model
    key for a model class or an instance of one, the first key it is an
    instance of otherwise. *)
Inductive resolves_to (st : registry) (d : pyobj) : atomic_key -> Prop :=
| resolves_model :
    issubclass (probe d) models.Model = Ok true ->
    resolves_to st d (Some models.Model)
| resolves_scan k :
    issubclass (probe d) models.Model = Ok false ->
    first_instance_key d (map fst (cls.ATOMIC_TYPES st)) k ->
    resolves_to st d (Some k).

(** The atomic table without the entries registered under [None], and the
    class object with such a table. *)
Definition without_None (d : list (atomic_key * atomic_renderer))
  : list (atomic_key * atomic_renderer) :=
  filter (fun entry => match fst entry with Some _ => true | None => false end) d.

Definition drop_None_entries (st : registry) : registry :=
  cls.Registry (without_None (cls.ATOMIC_TYPES st))
    (cls.CONTAINER_TYPES st) (cls.COMPOSITE_TYPES st).

(** A table value that, used as a rendering, gives a [str] or raises. *)
Definition gives_str (v : atomic_renderer) : Prop :=
  match v with
  | Literal _ => True
  | Function f => forall d, f d <> Ok NoneResult
  end.

(** The composite keys of the module and the separators of their joins. *)
Definition composite_separators : list (pyobj * string) :=
  [ (OClass tuple, ", "); (typing.Union, " | ") ].

(** ** The monad *)

Lemma bind_ok {A B} (m : M A) (k : A -> M B) st a st' :
  m st = (Ok a, st') -> bind m k st = k a st'.
Proof. intros H. unfold bind. rewrite H. reflexivity. Qed.

Lemma bind_raise {A B} (m : M A) (k : A -> M B) st e st' :
  m st = (Raise e, st') -> bind m k st = (Raise e, st').
Proof. intros H. unfold bind. rewrite H. reflexivity. Qed.

Lemma preserves_ret {A} (a : A) : preserves (ret a).
Proof. intros st. reflexivity. Qed.

Lemma preserves_raise {A} (e : exn) : preserves (@raise A e).
Proof. intros st. reflexivity. Qed.

Lemma preserves_lift {A} (o : outcome A) : preserves (lift o).
Proof. intros st. reflexivity. Qed.

Lemma preserves_read {A} (attr : registry -> A) : preserves (read attr).
Proof. intros st. reflexivity. Qed.

Lemma preserves_bind {A B} (m : M A) (k : A -> M B) :
  preserves m -> (forall a, preserves (k a)) -> preserves (bind m k).
Proof.
  intros Hm Hk st. unfold bind.
  specialize (Hm st). destruct (m st) as [[a|e] st']; simpl in Hm; subst st'.
  - apply Hk.
  - reflexivity.
Qed.

Lemma preserves_comprehension {A B} (f : A -> M B) (l : list A) :
  Forall (fun x => preserves (f x)) l -> preserves (comprehension f l).
Proof.
  induction 1 as [|x l Hx _ IH]; cbn [comprehension].
  - apply preserves_ret.
  - apply preserves_bind; [exact Hx|]. intros y.
    apply preserves_bind; [exact IH|]. intros ys. apply preserves_ret.
Qed.

(** A comprehension whose items all return gathers their values in order. *)
Lemma comprehension_ok {A B} (f : A -> M B) (l : list A) (ys : list B) st :
  Forall2 (fun x y => f x st = (Ok y, st)) l ys ->
  comprehension f l st = (Ok ys, st).
Proof.
  induction 1 as [|x y l ys Hx _ IH]; cbn [comprehension].
  - reflexivity.
  - rewrite (bind_ok _ _ _ _ _ Hx). rewrite (bind_ok _ _ _ _ _ IH). reflexivity.
Qed.

Ltac pure_step :=
  first
    [ apply preserves_ret | apply preserves_raise | apply preserves_lift
    | apply preserves_read
    | apply preserves_bind; [| intro ] ].

(** ** Properties of the class methods *)

Section Properties.
Import TypeTranspiler.
Variable get_origin : pyobj -> pyobj.
Variable get_args : pyobj -> pyobj.

Lemma _get_atomic_type_preserves d : preserves (_get_atomic_type d).
Proof. unfold _get_atomic_type. repeat pure_step. Qed.

Lemma render_atomic_type_preserves d : preserves (render_atomic_type d).
Proof.
  unfold render_atomic_type.
  pure_step; [pure_step|].
  pure_step; [destruct a; [pure_step | apply _get_atomic_type_preserves]|].
  pure_step; [pure_step|].
  pure_step; [pure_step|].
  destruct a2.
  - repeat pure_step. destruct a3; pure_step.
  - repeat pure_step. unfold call. destruct a3; pure_step.
Qed.

Lemma _transpile_preserves_children x :
  preserves (_transpile x) /\
  match x with
  | OTuple children => Forall (fun c => preserves (_transpile c)) children
  | OSeq _ children => Forall (fun c => preserves (_transpile c)) children
  | _ => True
  end.
Proof.
  induction x as [| c | c rm | c items IH | n | o args _ _ | items IH]
    using pyobj_nested_ind;
    try (split; [apply render_atomic_type_preserves | exact I]).
  { split; [apply render_atomic_type_preserves|].
    eapply Forall_impl; [| exact IH]. intros a [Ha _]. exact Ha. }
  assert (HF : Forall (fun c => preserves (_transpile c)) items).
  { eapply Forall_impl; [| exact IH]. intros c [Hc _]. exact Hc. }
  split; [| exact HF].
  destruct items as [| type_0 rest]; cbn [_transpile]; [pure_step|].
  destruct (is_tuple type_0); [inversion HF; assumption|].
  apply preserves_bind; [pure_step | intros composite].
  apply preserves_bind; [pure_step | intros is_composite].
  destruct is_composite.
  - pure_step; [pure_step|]. pure_step; [pure_step|].
    destruct rest as [| type_1 rest']; [pure_step|].
    inversion IH as [| ? ? _ IH1]; subst. inversion IH1 as [| ? ? [_ H1] _]; subst.
    destruct type_1; try apply preserves_raise.
    + pure_step; [| pure_step].
      apply preserves_comprehension. exact H1.
    + pure_step; [| pure_step].
      apply preserves_comprehension. exact H1.
  - apply preserves_bind; [pure_step | intros container].
    apply preserves_bind; [pure_step | intros is_container].
    destruct is_container.
    + pure_step; [pure_step|]. pure_step; [pure_step|].
      destruct rest as [| type_1 rest']; [pure_step|].
      inversion HF as [| ? ? _ HF1]; subst. inversion HF1; subst.
      pure_step; [assumption | pure_step].
    + destruct rest; [apply render_atomic_type_preserves | pure_step].
Qed.

Lemma _transpile_preserves x : preserves (_transpile x).
Proof. apply _transpile_preserves_children. Qed.

Lemma transpile_preserves d : preserves (transpile get_origin get_args d).
Proof.
  unfold transpile.
  destruct (negb (truthy (get_origin d))).
  - apply render_atomic_type_preserves.
  - apply _transpile_preserves.
Qed.

(** *** The scan of the atomic table *)

Lemma _get_atomic_type_loop_first d keys k :
  first_instance_key d keys k ->
  _get_atomic_type_loop d keys = Ok (Some k).
Proof.
  intros (before & after & -> & Hk & Hbefore).
  induction before as [| [k0|] before IH]; simpl.
  - rewrite Hk. reflexivity.
  - rewrite (Hbefore k0) by (left; reflexivity).
    apply IH. intros k' Hin. apply Hbefore. right. exact Hin.
  - apply IH. intros k' Hin. apply Hbefore. right. exact Hin.
Qed.

Lemma _get_atomic_type_loop_exhausted d keys :
  (forall k, In (Some k) keys -> isinstance d k = false) ->
  _get_atomic_type_loop d keys = Raise (TranspileError d).
Proof.
  induction keys as [| [k0|] keys IH]; simpl; intros H.
  - reflexivity.
  - rewrite (H k0) by (left; reflexivity).
    apply IH. intros k Hin. apply H. right. exact Hin.
  - apply IH. intros k Hin. apply H. right. exact Hin.
Qed.

(** The scan returns a key only for an instance of it, and never the key
    [None]. *)
Lemma _get_atomic_type_loop_returns d keys key :
  _get_atomic_type_loop d keys = Ok key ->
  exists k, key = Some k /\ first_instance_key d keys k.
Proof.
  induction keys as [| [k0|] keys IH]; simpl; intros H.
  - discriminate.
  - destruct (isinstance d k0) eqn:E.
    + injection H as <-. exists k0. split; [reflexivity|].
      exists [], keys. repeat split; [exact E|]. intros k' [].
    + destruct (IH H) as (k & -> & before & after & -> & Hk & Hb).
      exists k. split; [reflexivity|].
      exists (Some k0 :: before), after. repeat split; [exact Hk|].
      intros k' [Heq | Hin]; [injection Heq as <-; exact E | apply Hb; exact Hin].
  - destruct (IH H) as (k & -> & before & after & -> & Hk & Hb).
    exists k. split; [reflexivity|].
    exists (None :: before), after. repeat split; [exact Hk|].
    intros k' [Heq | Hin]; [discriminate | apply Hb; exact Hin].
Qed.

Lemma _get_atomic_type_loop_never_None d keys :
  _get_atomic_type_loop d keys <> Ok None.
Proof.
  intros H. destruct (_get_atomic_type_loop_returns _ _ _ H) as (k & Hk & _).
  discriminate.
Qed.

(** *** Atomic rendering *)

(** The object tested against [models.Model] is always a class. *)
Lemma probe_is_class d : exists c, probe d = OClass c.
Proof.
  unfold probe, type. destruct d; simpl; eexists; reflexivity.
Qed.

Lemma issubclass_probe_returns d k : exists b, issubclass (probe d) k = Ok b.
Proof.
  destruct (probe_is_class d) as [c ->]. simpl. eexists; reflexivity.
Qed.

Lemma render_atomic_type_unfold d st :
  render_atomic_type d st =
  match issubclass (probe d) models.Model with
  | Raise e => (Raise e, st)
  | Ok is_model =>
      match (if is_model then Ok (Some models.Model)
             else _get_atomic_type_loop d (map fst (cls.ATOMIC_TYPES st))) with
      | Raise e => (Raise e, st)
      | Ok base_type =>
          match getitem_atomic base_type (cls.ATOMIC_TYPES st) with
          | Raise e => (Raise e, st)
          | Ok (Literal s) => (Ok (Str s), st)
          | Ok (Function f) => (f d, st)
          end
      end
  end.
Proof.
  unfold render_atomic_type, probe, _get_atomic_type, bind, lift, read, ret, raise.
  destruct (issubclass _ _) as [[|]|e]; [| | reflexivity].
  - destruct (getitem_atomic (Some models.Model) (cls.ATOMIC_TYPES st)) as [[s|f]|e] eqn:E;
      rewrite ?E; unfold call, lift; reflexivity.
  - destruct (_get_atomic_type_loop d _) as [base_type|e]; [| reflexivity].
    destruct (getitem_atomic base_type (cls.ATOMIC_TYPES st)) as [[s|f]|e] eqn:E;
      rewrite ?E; unfold call, lift; reflexivity.
Qed.

Lemma render_atomic_type_resolved st d key :
  resolves_to st d key ->
  render_atomic_type d st =
  match getitem_atomic key (cls.ATOMIC_TYPES st) with
  | Raise e => (Raise e, st)
  | Ok (Literal s) => (Ok (Str s), st)
  | Ok (Function f) => (f d, st)
  end.
Proof.
  intros H. rewrite render_atomic_type_unfold.
  destruct H as [Hm | k Hm Hk]; rewrite Hm.
  - reflexivity.
  - rewrite (_get_atomic_type_loop_first _ _ _ Hk). reflexivity.
Qed.

Lemma transpile_no_origin d st :
  truthy (get_origin d) = false ->
  transpile get_origin get_args d st = render_atomic_type d st.
Proof. intros H. unfold transpile. rewrite H. reflexivity. Qed.

Lemma transpile_origin d st :
  truthy (get_origin d) = true ->
  transpile get_origin get_args d st =
  _transpile (OTuple [get_origin d; get_args d]) st.
Proof. intros H. unfold transpile. rewrite H. reflexivity. Qed.

(** *** The dispatch *)

(** A key of a table can be hashed. *)
Lemma same_key_hashable k x : same_key k x = true -> hashable x = true.
Proof. destruct k, x; simpl; intros H; try discriminate; reflexivity. Qed.

Lemma find_key_hashable {V} (x : pyobj) (d : list (pyobj * V)) v :
  find_key x d = Some v -> hashable x = true.
Proof.
  induction d as [| [k w] d IH]; simpl; [discriminate|].
  destruct (same_key k x) eqn:E; [intros _; exact (same_key_hashable _ _ E) | exact IH].
Qed.

(** A node whose origin is a composite key: the children are dispatched
    from left to right and the renderer receives their renderings in that
    order. *)
Lemma _transpile_composite st origin f children rest xs :
  is_tuple origin = false ->
  find_key origin (cls.COMPOSITE_TYPES st) = Some f ->
  Forall2 (fun c x => _transpile c st = (Ok x, st)) children xs ->
  _transpile (OTuple (origin :: OTuple children :: rest)) st = (f xs, st).
Proof.
  intros Ht Hf Hc. cbn [_transpile]. rewrite Ht.
  unfold bind at 1. unfold read at 1.
  unfold bind at 1. unfold lift at 1. unfold in_, contains.
  rewrite (find_key_hashable _ _ _ Hf), Hf.
  unfold bind at 1. unfold read at 1.
  unfold bind at 1. unfold lift at 1. unfold getitem.
  rewrite (find_key_hashable _ _ _ Hf), Hf.
  rewrite (bind_ok _ _ _ _ _ (comprehension_ok _ _ _ _ Hc)).
  reflexivity.
Qed.

(** X17: a node that is longer than one element and whose origin can be
    hashed and is registered by no table is rendered as [None]: the body of
    [_transpile] ends without a [return]. *)
Lemma _transpile_unregistered st origin type_1 rest :
  is_tuple origin = false ->
  hashable origin = true ->
  contains origin (cls.COMPOSITE_TYPES st) = false ->
  contains origin (cls.CONTAINER_TYPES st) = false ->
  _transpile (OTuple (origin :: type_1 :: rest)) st = (Ok NoneResult, st).
Proof.
  intros Ht Hh Hc1 Hc2. cbn [_transpile]. rewrite Ht.
  unfold bind, read, lift, in_. rewrite Hh, Hc1, Hc2. reflexivity.
Qed.

(** An element that cannot be hashed ends the dispatch of a tuple it
    heads: the membership test of the composite table raises
    [TypeError]. *)
Lemma _transpile_unhashable st origin rest :
  is_tuple origin = false ->
  hashable origin = false ->
  _transpile (OTuple (origin :: rest)) st = (Raise TypeError, st).
Proof.
  intros Ht Hh. cbn [_transpile]. rewrite Ht.
  unfold bind, read, lift, in_. rewrite Hh. reflexivity.
Qed.

(** *** Claims that hold for every registry and introspection facility *)

(** C2: a descriptor without origin marker whose class is not a model
    class and that is an instance of no key of the atomic table makes
    [transpile] raise [TranspileError], built from that very descriptor; no
    string is returned. *)
Theorem C2_unresolved_descriptor_raises st d :
  truthy (get_origin d) = false ->
  issubclass (probe d) models.Model = Ok false ->
  (forall k, In (Some k) (map fst (cls.ATOMIC_TYPES st)) -> isinstance d k = false) ->
  transpile get_origin get_args d st = (Raise (TranspileError d), st).
Proof.
  intros Ho Hm Hk. rewrite (transpile_no_origin _ _ Ho).
  rewrite render_atomic_type_unfold, Hm.
  rewrite (_get_atomic_type_loop_exhausted _ _ Hk). reflexivity.
Qed.

(** C4: a descriptor whose origin is [Union] and whose children are
    [TypeA] and [TypeB], in that order, is rendered as the rendering of
    [TypeA], then " | ", then the rendering of [TypeB]: the children are
    dispatched recursively and joined in input order, whether or not the two
    renderings differ. *)
Theorem C4_union_of_two_joins_in_order d TypeA TypeB a b :
  get_origin d = typing.Union ->
  get_args d = OTuple [TypeA; TypeB] ->
  _transpile TypeA tables = (Ok (Str a), tables) ->
  _transpile TypeB tables = (Ok (Str b), tables) ->
  transpile get_origin get_args d tables = (Ok (Str (a ++ " | " ++ b)), tables).
Proof.
  intros Ho Ha HA HB.
  rewrite transpile_origin by (rewrite Ho; reflexivity).
  rewrite Ho, Ha.
  rewrite (_transpile_composite tables typing.Union (fun x => join " | " x)
             [TypeA; TypeB] [] [Str a; Str b]).
  - reflexivity.
  - reflexivity.
  - reflexivity.
  - repeat constructor; assumption.
Qed.

(** C6, as the code has it: a dispatched one-element tuple [(x,)] whose
    element is not a tuple, can be hashed (the two membership tests hash
    it) and is not a composite or container key is rendered as the atomic
    rendering of [x]. *)
Theorem C6_one_element_tuple_pass_through st x :
  is_tuple x = false ->
  hashable x = true ->
  contains x (cls.COMPOSITE_TYPES st) = false ->
  contains x (cls.CONTAINER_TYPES st) = false ->
  _transpile (OTuple [x]) st = render_atomic_type x st.
Proof.
  intros Ht Hh Hc1 Hc2. cbn [_transpile]. rewrite Ht.
  unfold bind, read, lift, in_. rewrite Hh, Hc1, Hc2. reflexivity.
Qed.

(** C8: when a descriptor without origin marker resolves to an atomic key
    whose table value is a function, [transpile] returns that function
    applied to the descriptor itself. *)
Theorem C8_function_renderer_gets_descriptor st d key f :
  truthy (get_origin d) = false ->
  resolves_to st d key ->
  getitem_atomic key (cls.ATOMIC_TYPES st) = Ok (Function f) ->
  transpile get_origin get_args d st = (f d, st).
Proof.
  intros Ho Hr Hf. rewrite (transpile_no_origin _ _ Ho).
  rewrite (render_atomic_type_resolved _ _ _ Hr), Hf. reflexivity.
Qed.

(** C10: a dispatched tuple whose first element is itself a tuple is
    rendered as that first element alone; the elements after it play no
    part. *)
Theorem C10_nested_first_element st items rest :
  _transpile (OTuple (OTuple items :: rest)) st = _transpile (OTuple items) st.
Proof. reflexivity. Qed.

End Properties.

(** ** The tables of the module *)

Section Tables.
Import TypeTranspiler.

Ltac each_key H :=
  simpl in H;
  repeat (destruct H as [H | H];
          [ first [ discriminate H | injection H as <-; reflexivity ] |]);
  try contradiction.

(** First match wins: [True] is an instance of [int] and of [bool]; [int]
    comes first in the table and gives the rendering. *)
Example bool_instance_renders_as_int :
  TypeTranspiler_transpile (OInst builtins.bool None) tables = (Ok (Str types.NUMBER), tables).
Proof. reflexivity. Qed.

Example foreign_key_renders_related_model :
  TypeTranspiler_transpile example.owner tables = (Ok (Str "User"), tables).
Proof. reflexivity. Qed.

Example list_of_model :
  TypeTranspiler_transpile (OGeneric typing.List [OClass example.User]) tables
  = (Ok (Str "Array<User>"), tables).
Proof. reflexivity. Qed.

Example union_keeps_duplicates :
  TypeTranspiler_transpile (OGeneric typing.Union [OClass example.User; OClass example.User]) tables
  = (Ok (Str "User | User"), tables).
Proof. reflexivity. Qed.

(** A class whose metaclass is [type] is an instance of no key of the
    table: the scan raises on every such class, the keys themselves
    included. *)
Lemma class_descriptor_matches_no_key c :
  cmeta c = ["type"; "object"] ->
  _get_atomic_type (OClass c) tables = (Raise (TranspileError (OClass c)), tables).
Proof.
  intros Hmeta. unfold _get_atomic_type, bind, read, lift.
  rewrite _get_atomic_type_loop_exhausted; [reflexivity|].
  intros k H. unfold isinstance, type_of. cbn [cmro]. rewrite Hmeta.
  simpl in H.
  repeat (destruct H as [H | H];
          [ first [ discriminate H | injection H as <-; reflexivity ] |]).
  contradiction.
Qed.

(** C1: the class [str] is the first key of the atomic table, yet the scan,
    which tests [isinstance] only, passes every key and raises: a descriptor
    that is a key itself is not matched by it. *)
Theorem C1_key_itself_is_not_matched :
  let d := OClass builtins.str in
  hd_error (map fst ATOMIC_TYPES) = Some (Some builtins.str) /\
  _get_atomic_type d tables = (Raise (TranspileError d), tables) /\
  TypeTranspiler_transpile d tables = (Raise (TranspileError d), tables).
Proof. repeat split. Qed.

Lemma C2_witness :
  TypeTranspiler_transpile (OClass (builtin "bytes")) tables
  = (Raise (TranspileError (OClass (builtin "bytes"))), tables).
Proof.
  apply C2_unresolved_descriptor_raises.
  - reflexivity.
  - reflexivity.
  - intros k H. each_key H.
Defined.

(** C3: [List[Union[str, None]]] is not rendered as "Array<string | null>":
    the call raises [TranspileError], whether the introspection facility
    hands the inner union over as a descriptor or as a nested
    (origin, children) pair, and, beside a string-typed child that does
    render (a [CharField] instance), whether the null type is [None] or its
    class. *)
Theorem C3_list_of_union_str_none_raises :
  let union := OGeneric typing.Union [OClass builtins.str; ONone] in
  let nested children := OTuple [typing.List; OTuple [OTuple [typing.Union; OTuple children]]] in
  TypeTranspiler_transpile (OGeneric typing.List [union]) tables = (Raise (TranspileError union), tables) /\
  _transpile (nested [OClass builtins.str; ONone]) tables
  = (Raise (TranspileError (OClass builtins.str)), tables) /\
  _transpile (nested [OInst models.CharField None; ONone]) tables
  = (Raise (TranspileError ONone), tables) /\
  _transpile (nested [OInst models.CharField None; OClass NoneType]) tables
  = (Raise (TranspileError (OClass NoneType)), tables).
Proof. repeat split. Qed.

Lemma C4_witness :
  TypeTranspiler_transpile (OGeneric typing.Union [OClass example.User; OClass example.Group]) tables
  = (Ok (Str "User | Group"), tables).
Proof.
  apply (C4_union_of_two_joins_in_order typing_inspect.get_origin typing_inspect.get_args
           (OGeneric typing.Union [OClass example.User; OClass example.Group])
           (OClass example.User) (OClass example.Group) "User" "Group");
    reflexivity.
Defined.

(** C5: [Mapping[User, Group]] has an origin that none of the three tables
    registers and two children; the call raises nothing and returns [None], and so does
    the dispatch of such a node without children.  Wrapped in a [List] the
    [None] is formatted into the string "Array<None>". *)
Theorem C5_unregistered_origin_returns_None :
  let two := [OClass example.User; OClass example.Group] in
  existsb (fun k => same_key (atomic_key_object k) example.Mapping) (map fst ATOMIC_TYPES)
  = false /\
  contains example.Mapping COMPOSITE_TYPES = false /\
  contains example.Mapping CONTAINER_TYPES = false /\
  TypeTranspiler_transpile (OGeneric example.Mapping two) tables = (Ok NoneResult, tables) /\
  _transpile (OTuple [example.Mapping; OTuple []]) tables = (Ok NoneResult, tables) /\
  _transpile (OTuple [typing.List; OTuple [OTuple [example.Mapping; OTuple two]]]) tables
  = (Ok (Str "Array<None>"), tables).
Proof. repeat split. Qed.

(** C6 as stated fails: [Set[User]] has an origin that is neither a
    composite nor a container key and exactly one child, whose atomic
    rendering is "User"; [transpile] returns [None] for it. *)
Lemma C6_counterexample :
  let d := OGeneric example.Set_ [OClass example.User] in
  typing_inspect.get_origin d = example.Set_ /\
  typing_inspect.get_args d = OTuple [OClass example.User] /\
  contains example.Set_ COMPOSITE_TYPES = false /\
  contains example.Set_ CONTAINER_TYPES = false /\
  render_atomic_type (OClass example.User) tables = (Ok (Str "User"), tables) /\
  TypeTranspiler_transpile d tables = (Ok NoneResult, tables) /\
  TypeTranspiler_transpile d tables <> render_atomic_type (OClass example.User) tables.
Proof. repeat split. discriminate. Qed.

Lemma C6_witness :
  _transpile (OTuple [OClass example.User]) tables
  = render_atomic_type (OClass example.User) tables.
Proof. apply C6_one_element_tuple_pass_through; reflexivity. Defined.

(** C7: the table registers the key [None] with the null token, the scan
    skips it, and nothing matches it by identity: transpiling [None] raises
    [TranspileError]. *)
Theorem C7_None_descriptor_raises :
  getitem_atomic None ATOMIC_TYPES = Ok (Literal types.NULL) /\
  truthy (typing_inspect.get_origin ONone) = false /\
  render_atomic_type ONone tables = (Raise (TranspileError ONone), tables) /\
  TypeTranspiler_transpile ONone tables = (Raise (TranspileError ONone), tables).
Proof. repeat split. Qed.

Lemma C8_witness :
  TypeTranspiler_transpile example.owner tables = (related_model_name example.owner, tables).
Proof.
  apply (C8_function_renderer_gets_descriptor typing_inspect.get_origin
           typing_inspect.get_args tables example.owner (Some models.ForeignKey)).
  - reflexivity.
  - apply resolves_scan; [reflexivity|].
    exists (firstn 30 (map fst ATOMIC_TYPES)), (skipn 31 (map fst ATOMIC_TYPES)).
    split; [reflexivity|]. split; [reflexivity|].
    intros k H. each_key H.
  - reflexivity.
Defined.

End Tables.

(** ** Further properties of the class methods *)

Section Further.
Import TypeTranspiler.
Variable get_origin : pyobj -> pyobj.
Variable get_args : pyobj -> pyobj.

(** A computation that leaves the class object alone is its result paired
    with the state it started in. *)
Lemma preserves_run {A} (m : M A) st : preserves m -> m st = (fst (m st), st).
Proof.
  intros H. specialize (H st). destruct (m st) as [r st']. simpl in *. subst. reflexivity.
Qed.

(** The dispatch of a non-empty tuple, branch by branch. *)
Lemma _transpile_tuple_unfold st type_0 rest :
  _transpile (OTuple (type_0 :: rest)) st =
  if is_tuple type_0 then _transpile type_0 st
  else if negb (hashable type_0) then (Raise TypeError, st)
  else
    match find_key type_0 (cls.COMPOSITE_TYPES st) with
    | Some f =>
        match rest with
        | [] => (Raise IndexError, st)
        | OTuple children :: _ | OSeq _ children :: _ =>
            match comprehension _transpile children st with
            | (Ok x, st') => (f x, st')
            | (Raise e, st') => (Raise e, st')
            end
        | _ :: _ => (Raise TypeError, st)
        end
    | None =>
        match find_key type_0 (cls.CONTAINER_TYPES st) with
        | Some f =>
            match rest with
            | [] => (Raise IndexError, st)
            | type_1 :: _ =>
                match _transpile type_1 st with
                | (Ok x, st') => (f x, st')
                | (Raise e, st') => (Raise e, st')
                end
            end
        | None =>
            match rest with
            | [] => render_atomic_type type_0 st
            | _ :: _ => (Ok NoneResult, st)
            end
        end
    end.
Proof.
  cbn [_transpile]. destruct (is_tuple type_0); [reflexivity|].
  unfold bind at 1. unfold read at 1.
  unfold bind at 1. unfold lift at 1. unfold in_, contains.
  destruct (hashable type_0) eqn:Eh; [| reflexivity]. cbn [negb].
  destruct (find_key type_0 (cls.COMPOSITE_TYPES st)) as [f|] eqn:Ec.
  - unfold bind at 1. unfold read at 1. unfold bind at 1. unfold lift at 1.
    unfold getitem. rewrite Eh, Ec.
    destruct rest as [| type_1 rest']; [reflexivity|].
    destruct type_1; reflexivity.
  - unfold bind at 1. unfold read at 1.
    unfold bind at 1. unfold lift at 1.
    destruct (find_key type_0 (cls.CONTAINER_TYPES st)) as [f|] eqn:Ek.
    + unfold bind at 1. unfold read at 1. unfold bind at 1. unfold lift at 1.
      unfold getitem. rewrite Eh, Ek.
      destruct rest as [| type_1 rest']; reflexivity.
    + destruct rest; reflexivity.
Qed.

Lemma contains_find_key {V} (x : pyobj) (d : list (pyobj * V)) :
  contains x d = true -> exists v, find_key x d = Some v.
Proof.
  unfold contains. destruct (find_key x d) as [v|]; [eexists; reflexivity | discriminate].
Qed.

Lemma contains_false_find_key {V} (x : pyobj) (d : list (pyobj * V)) :
  contains x d = false -> find_key x d = None.
Proof.
  unfold contains. destruct (find_key x d); [discriminate | reflexivity].
Qed.

(** A comprehension stops at the first item that raises. *)
Lemma comprehension_raise {A B} (f : A -> M B) before x after ys e st :
  Forall2 (fun a y => f a st = (Ok y, st)) before ys ->
  f x st = (Raise e, st) ->
  comprehension f (before ++ x :: after)%list st = (Raise e, st).
Proof.
  intros Hb Hx. induction Hb as [| a y l ys' Ha _ IH]; simpl.
  - rewrite (bind_raise _ _ _ _ _ Hx). reflexivity.
  - rewrite (bind_ok _ _ _ _ _ Ha). rewrite (bind_raise _ _ _ _ _ IH). reflexivity.
Qed.

Lemma strings_Str l : strings (map Str l) = Some l.
Proof. induction l as [| s l IH]; simpl; [| rewrite IH]; reflexivity. Qed.

Lemma strings_None x : In NoneResult x -> strings x = None.
Proof.
  induction x as [| [s|] x IH]; simpl; intros H.
  - contradiction.
  - destruct H as [H | H]; [discriminate|]. rewrite (IH H). reflexivity.
  - reflexivity.
Qed.

(** *** Atomic rendering *)

(** X1: a descriptor without origin marker that resolves to a key whose
    table value is a string is rendered as exactly that string; the key may
    be an ancestor of the descriptor's class. *)
Theorem literal_renderer_is_returned_verbatim st d key s :
  truthy (get_origin d) = false ->
  resolves_to st d key ->
  getitem_atomic key (cls.ATOMIC_TYPES st) = Ok (Literal s) ->
  transpile get_origin get_args d st = (Ok (Str s), st).
Proof.
  intros Ho Hr Hs. rewrite (transpile_no_origin _ _ _ _ Ho).
  rewrite (render_atomic_type_resolved _ _ _ Hr), Hs. reflexivity.
Qed.

(** X2: [_get_atomic_type] returns a key exactly when that key is a class
    of the table the descriptor is an instance of and the descriptor is an
    instance of no class registered before it. *)
Theorem scan_returns_exactly_the_first_instance_key st d k :
  _get_atomic_type d st = (Ok (Some k), st) <->
  first_instance_key d (map fst (cls.ATOMIC_TYPES st)) k.
Proof.
  unfold _get_atomic_type, bind, read, lift. split.
  - intros H. injection H as H.
    destruct (_get_atomic_type_loop_returns _ _ _ H) as (k' & Heq & Hk').
    injection Heq as ->. exact Hk'.
  - intros H. rewrite (_get_atomic_type_loop_first _ _ _ H). reflexivity.
Qed.

Lemma _get_atomic_type_loop_without_None d t :
  _get_atomic_type_loop d (map fst (without_None t))
  = _get_atomic_type_loop d (map fst t).
Proof.
  induction t as [| [[k|] v] t IH]; simpl; [reflexivity | | exact IH].
  rewrite IH. reflexivity.
Qed.

Lemma getitem_atomic_without_None k t :
  getitem_atomic (Some k) (without_None t) = getitem_atomic (Some k) t.
Proof.
  induction t as [| [[k'|] v] t IH]; simpl; [reflexivity | | exact IH].
  rewrite IH. reflexivity.
Qed.

Lemma render_atomic_type_without_None d st :
  fst (render_atomic_type d st) = fst (render_atomic_type d (drop_None_entries st)).
Proof.
  rewrite !render_atomic_type_unfold. cbn [drop_None_entries cls.ATOMIC_TYPES].
  rewrite _get_atomic_type_loop_without_None.
  destruct (issubclass (probe d) models.Model) as [[|]|e]; [| | reflexivity].
  - rewrite getitem_atomic_without_None.
    destruct (getitem_atomic _ _) as [[s|f]|e]; reflexivity.
  - destruct (_get_atomic_type_loop d _) as [key|e] eqn:E; [| reflexivity].
    destruct (_get_atomic_type_loop_returns _ _ _ E) as (k & -> & _).
    rewrite getitem_atomic_without_None.
    destruct (getitem_atomic _ _) as [[s|f]|e]; reflexivity.
Qed.

Lemma comprehension_fst_ext {A B} (f : A -> M B) (l : list A) st st' :
  (forall a, preserves (f a)) ->
  Forall (fun a => fst (f a st) = fst (f a st')) l ->
  fst (comprehension f l st) = fst (comprehension f l st').
Proof.
  intros Hp. induction 1 as [| a l Ha _ IH]; cbn [comprehension]; [reflexivity|].
  assert (Hc : preserves (comprehension f l)).
  { apply preserves_comprehension. apply Forall_forall. intros; apply Hp. }
  unfold bind.
  rewrite (preserves_run (f a) st (Hp a)), (preserves_run (f a) st' (Hp a)), Ha.
  destruct (fst (f a st')) as [y|e]; [| reflexivity].
  rewrite (preserves_run _ st Hc), (preserves_run _ st' Hc), IH.
  destruct (fst (comprehension f l st')); reflexivity.
Qed.

Lemma _transpile_without_None_children x :
  (forall st, fst (_transpile x st) = fst (_transpile x (drop_None_entries st))) /\
  match x with
  | OTuple children | OSeq _ children =>
      Forall (fun c => forall st,
                fst (_transpile c st) = fst (_transpile c (drop_None_entries st)))
        children
  | _ => True
  end.
Proof.
  induction x as [| c | c rm | c items IH | n | o args _ _ | items IH]
    using pyobj_nested_ind;
    try (split; [intros st; apply render_atomic_type_without_None | exact I]).
  { split; [intros st; apply render_atomic_type_without_None|].
    eapply Forall_impl; [| exact IH]. intros a [Ha _]. exact Ha. }
  assert (HF : Forall (fun c => forall st,
                         fst (_transpile c st) = fst (_transpile c (drop_None_entries st)))
                 items).
  { eapply Forall_impl; [| exact IH]. intros c [Hc _]. exact Hc. }
  split; [| exact HF]. intros st.
  destruct items as [| type_0 rest]; [reflexivity|].
  rewrite !_transpile_tuple_unfold.
  cbn [drop_None_entries cls.COMPOSITE_TYPES cls.CONTAINER_TYPES].
  destruct (is_tuple type_0); [inversion HF; auto|].
  destruct (negb (hashable type_0)); [reflexivity|].
  assert (Hcomp : forall children (f : list rendered -> outcome rendered),
             Forall (fun c => forall st,
                       fst (_transpile c st) = fst (_transpile c (drop_None_entries st)))
               children ->
             fst (match comprehension _transpile children st with
                  | (Ok x, st') => (f x, st')
                  | (Raise e, st') => (Raise e, st')
                  end)
             = fst (match comprehension _transpile children (drop_None_entries st) with
                    | (Ok x, st') => (f x, st')
                    | (Raise e, st') => (Raise e, st')
                    end)).
  { intros children f H1.
    assert (Hp : preserves (comprehension _transpile children)).
    { apply preserves_comprehension. apply Forall_forall.
      intros; apply _transpile_preserves. }
    rewrite (preserves_run _ st Hp), (preserves_run _ (drop_None_entries st) Hp).
    rewrite (comprehension_fst_ext _transpile children st (drop_None_entries st)
               _transpile_preserves).
    - destruct (fst (comprehension _transpile children (drop_None_entries st)));
        reflexivity.
    - eapply Forall_impl; [| exact H1]. intros a Ha. apply Ha. }
  destruct (find_key type_0 (cls.COMPOSITE_TYPES st)) as [f|].
  - destruct rest as [| type_1 rest']; [reflexivity|].
    inversion IH as [| ? ? _ IH1]; subst. inversion IH1 as [| ? ? [_ H1] _]; subst.
    destruct type_1; try reflexivity; apply Hcomp; exact H1.
  - destruct (find_key type_0 (cls.CONTAINER_TYPES st)) as [f|].
    + destruct rest as [| type_1 rest']; [reflexivity|].
      inversion HF as [| ? ? _ HF1]; subst. inversion HF1 as [| ? ? H1 _]; subst.
      rewrite (preserves_run (_transpile type_1) st (_transpile_preserves type_1)),
              (preserves_run (_transpile type_1) (drop_None_entries st)
                 (_transpile_preserves type_1)).
      rewrite (H1 st).
      destruct (fst (_transpile type_1 (drop_None_entries st))); reflexivity.
    + destruct rest; [apply render_atomic_type_without_None | reflexivity].
Qed.

(** X3: the entries of the atomic table registered under [None] take part
    in no rendering: [transpile] gives the same result on a table from which
    they are removed. *)
Theorem None_entries_are_never_consulted st d :
  fst (transpile get_origin get_args d st)
  = fst (transpile get_origin get_args d (drop_None_entries st)).
Proof.
  unfold transpile. destruct (negb (truthy (get_origin d))).
  - apply render_atomic_type_without_None.
  - apply _transpile_without_None_children.
Qed.

(** X4: a model class, that is a class with [models.Model] in its
    [__mro__], is rendered as its own [__name__], whatever the scan of the
    table would find. *)
Theorem model_class_renders_as_its_name c :
  truthy (get_origin (OClass c)) = false ->
  issubclass (OClass c) models.Model = Ok true ->
  transpile get_origin get_args (OClass c) tables = (Ok (Str (cname c)), tables).
Proof.
  intros Ho Hm. rewrite (transpile_no_origin _ _ _ _ Ho).
  rewrite render_atomic_type_unfold. unfold probe. cbn [isclass negb].
  rewrite Hm. reflexivity.
Qed.

(** X5: an instance of a model class is sent to the renderer of
    [models.Model], which reads [__name__]: the call raises
    [AttributeError], not [TranspileError]. *)
Theorem model_instance_raises_AttributeError c rm :
  truthy (get_origin (OInst c rm)) = false ->
  issubclass (OClass c) models.Model = Ok true ->
  transpile get_origin get_args (OInst c rm) tables = (Raise AttributeError, tables).
Proof.
  intros Ho Hm. rewrite (transpile_no_origin _ _ _ _ Ho).
  rewrite render_atomic_type_unfold. unfold probe, type. cbn [isclass negb type_of].
  rewrite Hm. reflexivity.
Qed.

(** X6: when the class [models.Model] is not a key of the atomic table, a
    model class or an instance of one makes the call raise [KeyError]. *)
Theorem model_key_missing_raises_KeyError st d :
  truthy (get_origin d) = false ->
  issubclass (probe d) models.Model = Ok true ->
  getitem_atomic (Some models.Model) (cls.ATOMIC_TYPES st) = Raise KeyError ->
  transpile get_origin get_args d st = (Raise KeyError, st).
Proof.
  intros Ho Hm Hk. rewrite (transpile_no_origin _ _ _ _ Ho).
  rewrite render_atomic_type_unfold, Hm, Hk. reflexivity.
Qed.

Lemma getitem_atomic_In key t v :
  getitem_atomic key t = Ok v -> In v (map snd t).
Proof.
  induction t as [| [k' v'] t IH]; simpl; [discriminate|].
  destruct (same_atomic_key k' key).
  - intros H. injection H as ->. left. reflexivity.
  - intros H. right. apply IH. exact H.
Qed.

(** X7: when every value of the atomic table is a string or a function
    that returns a [str] or raises, a descriptor without origin marker is
    never rendered as [None]. *)
Theorem no_origin_never_renders_None st d :
  truthy (get_origin d) = false ->
  Forall gives_str (map snd (cls.ATOMIC_TYPES st)) ->
  fst (transpile get_origin get_args d st) <> Ok NoneResult.
Proof.
  intros Ho Hall. rewrite (transpile_no_origin _ _ _ _ Ho).
  rewrite render_atomic_type_unfold.
  assert (Hget : forall key,
             fst (match getitem_atomic key (cls.ATOMIC_TYPES st) with
                  | Ok (Literal s) => (Ok (Str s), st)
                  | Ok (Function f) => (f d, st)
                  | Raise e => (Raise e, st)
                  end) <> Ok NoneResult).
  { intros key. destruct (getitem_atomic key (cls.ATOMIC_TYPES st)) as [v|e] eqn:E.
    - apply getitem_atomic_In in E.
      rewrite Forall_forall in Hall. specialize (Hall _ E).
      destruct v as [s|f]; simpl; [discriminate | apply Hall].
    - simpl. discriminate. }
  destruct (issubclass (probe d) models.Model) as [[|]|e]; [apply Hget | | simpl; discriminate].
  destruct (_get_atomic_type_loop d _) as [key|e]; [apply Hget | simpl; discriminate].
Qed.

(** *** Containers *)

(** X8: a descriptor whose origin is a container key and whose only child
    is not a tuple, can be hashed and is neither a composite nor a container
    key is rendered by applying the container's renderer to the atomic
    rendering of the child. *)
Theorem container_wraps_atomic_child st d origin f child x :
  get_origin d = origin ->
  truthy origin = true ->
  is_tuple origin = false ->
  contains origin (cls.COMPOSITE_TYPES st) = false ->
  find_key origin (cls.CONTAINER_TYPES st) = Some f ->
  get_args d = OTuple [child] ->
  is_tuple child = false ->
  hashable child = true ->
  contains child (cls.COMPOSITE_TYPES st) = false ->
  contains child (cls.CONTAINER_TYPES st) = false ->
  render_atomic_type child st = (Ok x, st) ->
  transpile get_origin get_args d st = (f x, st).
Proof.
  intros Ho Ht Hto Hc Hk Ha Htc Hh Hcc Hck Hr.
  rewrite transpile_origin by (rewrite Ho; exact Ht).
  rewrite Ho, Ha, _transpile_tuple_unfold, Hto.
  rewrite (find_key_hashable _ _ _ Hk). cbn [negb].
  rewrite (contains_false_find_key _ _ Hc), Hk.
  rewrite _transpile_tuple_unfold, Htc, Hh. cbn [negb].
  rewrite (contains_false_find_key _ _ Hcc), (contains_false_find_key _ _ Hck).
  rewrite Hr. reflexivity.
Qed.

(** X9: when the children of a container descriptor begin with a nested
    (origin, children) tuple, that tuple is dispatched and the container's
    renderer is applied to its rendering; the children after it are not
    looked at. *)
Theorem container_wraps_nested_node st d origin f items more x :
  get_origin d = origin ->
  truthy origin = true ->
  is_tuple origin = false ->
  contains origin (cls.COMPOSITE_TYPES st) = false ->
  find_key origin (cls.CONTAINER_TYPES st) = Some f ->
  get_args d = OTuple (OTuple items :: more) ->
  _transpile (OTuple items) st = (Ok x, st) ->
  transpile get_origin get_args d st = (f x, st).
Proof.
  intros Ho Ht Hto Hc Hk Ha Hr.
  rewrite transpile_origin by (rewrite Ho; exact Ht).
  rewrite Ho, Ha, _transpile_tuple_unfold, Hto.
  rewrite (find_key_hashable _ _ _ Hk). cbn [negb].
  rewrite (contains_false_find_key _ _ Hc), Hk.
  rewrite _transpile_tuple_unfold. cbn [is_tuple].
  rewrite Hr. reflexivity.
Qed.

(** X10: an exception raised while the child of a container node is
    dispatched leaves the node unrendered: the node raises the same
    exception and the container's renderer is not applied. *)
Theorem container_child_error_propagates st origin f type_1 rest e :
  is_tuple origin = false ->
  contains origin (cls.COMPOSITE_TYPES st) = false ->
  find_key origin (cls.CONTAINER_TYPES st) = Some f ->
  _transpile type_1 st = (Raise e, st) ->
  _transpile (OTuple (origin :: type_1 :: rest)) st = (Raise e, st).
Proof.
  intros Hto Hc Hk Hr.
  rewrite _transpile_tuple_unfold, Hto.
  rewrite (find_key_hashable _ _ _ Hk). cbn [negb].
  rewrite (contains_false_find_key _ _ Hc), Hk, Hr. reflexivity.
Qed.

(** X11: a descriptor whose origin is a container key and that has no
    children raises [IndexError]. *)
Theorem container_without_children_raises_IndexError st d origin f :
  get_origin d = origin ->
  truthy origin = true ->
  is_tuple origin = false ->
  contains origin (cls.COMPOSITE_TYPES st) = false ->
  find_key origin (cls.CONTAINER_TYPES st) = Some f ->
  get_args d = OTuple [] ->
  transpile get_origin get_args d st = (Raise IndexError, st).
Proof.
  intros Ho Ht Hto Hc Hk Ha.
  rewrite transpile_origin by (rewrite Ho; exact Ht).
  rewrite Ho, Ha, _transpile_tuple_unfold, Hto.
  rewrite (find_key_hashable _ _ _ Hk). cbn [negb].
  rewrite (contains_false_find_key _ _ Hc), Hk. reflexivity.
Qed.

(** X12: a dispatched one-element tuple whose element is a composite or a
    container key raises [IndexError]: the children are looked up at index
    one. *)
Theorem registered_origin_alone_raises_IndexError st origin :
  is_tuple origin = false ->
  contains origin (cls.COMPOSITE_TYPES st) = true \/
  contains origin (cls.CONTAINER_TYPES st) = true ->
  _transpile (OTuple [origin]) st = (Raise IndexError, st).
Proof.
  intros Hto H. rewrite _transpile_tuple_unfold, Hto.
  assert (Hh : hashable origin = true).
  { destruct H as [H | H]; apply contains_find_key in H; destruct H as [v H];
      exact (find_key_hashable _ _ _ H). }
  rewrite Hh. cbn [negb].
  destruct (find_key origin (cls.COMPOSITE_TYPES st)) as [f|] eqn:Ec; [reflexivity|].
  destruct H as [H | H].
  - apply contains_find_key in H. destruct H as [v H]. congruence.
  - apply contains_find_key in H. destruct H as [v H]. rewrite H. reflexivity.
Qed.

(** *** Composites *)

Lemma Forall2_Str (children : list pyobj) (strs : list string) st :
  Forall2 (fun c s => _transpile c st = (Ok (Str s), st)) children strs ->
  Forall2 (fun c x => _transpile c st = (Ok x, st)) children (map Str strs).
Proof. induction 1; simpl; constructor; assumption. Qed.

(** X13: with the tables of the module, a node whose origin is [tuple] or
    [Union] and whose children are all rendered as strings is rendered as
    those strings, in the order of the children, joined by ", " for [tuple]
    and by " | " for [Union]; without children the rendering is the empty
    string. *)
Theorem composite_joins_children_in_order origin sep children strs rest :
  In (origin, sep) composite_separators ->
  Forall2 (fun c s => _transpile c tables = (Ok (Str s), tables)) children strs ->
  _transpile (OTuple (origin :: OTuple children :: rest)) tables
  = (Ok (Str (String.concat sep strs)), tables).
Proof.
  intros Hin Hc. apply Forall2_Str in Hc.
  destruct Hin as [H | [H | []]]; injection H as <- <-.
  - rewrite (_transpile_composite tables (OClass tuple) (fun x => join ", " x)
               children rest (map Str strs)); try reflexivity; [| exact Hc].
    unfold join. rewrite strings_Str. reflexivity.
  - rewrite (_transpile_composite tables typing.Union (fun x => join " | " x)
               children rest (map Str strs)); try reflexivity; [| exact Hc].
    unfold join. rewrite strings_Str. reflexivity.
Qed.

(** X14: the children of a composite node are dispatched from left to
    right and the first exception ends the call: the node raises the
    exception of the first child that raises, and the composite renderer is
    not applied. *)
Theorem composite_raises_first_child_error st origin f before child after xs rest e :
  is_tuple origin = false ->
  find_key origin (cls.COMPOSITE_TYPES st) = Some f ->
  Forall2 (fun c x => _transpile c st = (Ok x, st)) before xs ->
  _transpile child st = (Raise e, st) ->
  _transpile (OTuple (origin :: OTuple (before ++ child :: after)%list :: rest)) st
  = (Raise e, st).
Proof.
  intros Hto Hf Hb Hc. rewrite _transpile_tuple_unfold, Hto.
  rewrite (find_key_hashable _ _ _ Hf). cbn [negb]. rewrite Hf.
  rewrite (comprehension_raise _transpile before child after xs e st Hb Hc).
  reflexivity.
Qed.

(** X15: with the tables of the module, a node whose origin is [tuple] or
    [Union] and one of whose children is rendered as [None], while none
    raises, raises [TypeError]: the join accepts strings only. *)
Theorem composite_with_None_child_raises_TypeError origin sep children xs rest :
  In (origin, sep) composite_separators ->
  Forall2 (fun c x => _transpile c tables = (Ok x, tables)) children xs ->
  In NoneResult xs ->
  _transpile (OTuple (origin :: OTuple children :: rest)) tables = (Raise TypeError, tables).
Proof.
  intros Hin Hc Hn.
  destruct Hin as [H | [H | []]]; injection H as <- <-.
  - rewrite (_transpile_composite tables (OClass tuple) (fun x => join ", " x)
               children rest xs); try reflexivity; [| exact Hc].
    unfold join. rewrite (strings_None _ Hn). reflexivity.
  - rewrite (_transpile_composite tables typing.Union (fun x => join " | " x)
               children rest xs); try reflexivity; [| exact Hc].
    unfold join. rewrite (strings_None _ Hn). reflexivity.
Qed.

(** X16: with the tables of the module, a class whose metaclass is
    [type] and that is not a model class is an instance of no key, so
    [transpile] raises [TranspileError] on it; the classes registered as
    keys are among them. *)
Theorem plain_class_descriptor_raises c :
  truthy (get_origin (OClass c)) = false ->
  cmeta c = ["type"; "object"] ->
  issubclass (OClass c) models.Model = Ok false ->
  transpile get_origin get_args (OClass c) tables
  = (Raise (TranspileError (OClass c)), tables).
Proof.
  intros Ho Hmeta Hm. rewrite (transpile_no_origin _ _ _ _ Ho).
  rewrite render_atomic_type_unfold. unfold probe. cbn [isclass negb].
  rewrite Hm.
  assert (H : _get_atomic_type_loop (OClass c) (map fst (cls.ATOMIC_TYPES tables))
              = Raise (TranspileError (OClass c)))
    by exact (f_equal fst (class_descriptor_matches_no_key c Hmeta)).
  rewrite H. reflexivity.
Qed.

End Further.

(** ** Instances of the further properties *)

Section FurtherInstances.
Import TypeTranspiler.

Ltac scan_keys H :=
  simpl in H;
  repeat (destruct H as [H | H];
          [ first [ discriminate H | injection H as <-; reflexivity ] |]);
  try contradiction.

Lemma literal_renderer_is_returned_verbatim_witness :
  TypeTranspiler_transpile (OInst models.EmailField None) tables
  = (Ok (Str "string"), tables).
Proof.
  apply (literal_renderer_is_returned_verbatim typing_inspect.get_origin
           typing_inspect.get_args tables (OInst models.EmailField None)
           (Some models.CharField) "string").
  - reflexivity.
  - apply resolves_scan; [reflexivity|].
    exists (firstn 10 (map fst ATOMIC_TYPES)), (skipn 11 (map fst ATOMIC_TYPES)).
    split; [reflexivity|]. split; [reflexivity|].
    intros k H. scan_keys H.
  - reflexivity.
Defined.

Lemma model_class_renders_as_its_name_witness :
  TypeTranspiler_transpile (OClass example.User) tables = (Ok (Str "User"), tables).
Proof.
  apply (model_class_renders_as_its_name typing_inspect.get_origin
           typing_inspect.get_args example.User); reflexivity.
Defined.

Lemma model_instance_raises_AttributeError_witness :
  TypeTranspiler_transpile (OInst example.User None) tables = (Raise AttributeError, tables).
Proof.
  apply (model_instance_raises_AttributeError typing_inspect.get_origin
           typing_inspect.get_args example.User None); reflexivity.
Defined.

Lemma model_key_missing_raises_KeyError_witness :
  TypeTranspiler_transpile (OClass example.User) (cls.Registry [] [] [])
  = (Raise KeyError, cls.Registry [] [] []).
Proof.
  apply (model_key_missing_raises_KeyError typing_inspect.get_origin
           typing_inspect.get_args (cls.Registry [] [] []) (OClass example.User));
    reflexivity.
Defined.

Lemma no_origin_never_renders_None_witness :
  fst (TypeTranspiler_transpile example.owner tables) <> Ok NoneResult.
Proof.
  apply (no_origin_never_renders_None typing_inspect.get_origin
           typing_inspect.get_args tables example.owner).
  - reflexivity.
  - simpl. repeat constructor;
      intros d; unfold related_model_name, related_model, dunder_name;
      destruct d as [| c | c [m|] | c items | n | o args | items]; discriminate.
Defined.

Lemma container_wraps_atomic_child_witness :
  TypeTranspiler_transpile (OGeneric (OClass lookups.Range) [OInst builtins.int None]) tables
  = (Ok (Str "[number, number]"), tables).
Proof.
  apply (container_wraps_atomic_child typing_inspect.get_origin typing_inspect.get_args
           tables (OGeneric (OClass lookups.Range) [OInst builtins.int None])
           (OClass lookups.Range)
           (fun x => Ok (Str ("[" ++ format x ++ ", " ++ format x ++ "]")))
           (OInst builtins.int None) (Str "number"));
    reflexivity.
Defined.

Lemma container_wraps_nested_node_witness :
  TypeTranspiler_transpile
    (OGeneric typing.List
       [OTuple [OClass tuple; OTuple [OClass example.User; OClass example.Group]]])
    tables
  = (Ok (Str "Array<User, Group>"), tables).
Proof.
  apply (container_wraps_nested_node typing_inspect.get_origin typing_inspect.get_args
           tables _ typing.List
           (fun x => Ok (Str (types.ARRAY ++ "<" ++ format x ++ ">")))
           [OClass tuple; OTuple [OClass example.User; OClass example.Group]] []
           (Str "User, Group"));
    reflexivity.
Defined.

Lemma container_child_error_propagates_witness :
  _transpile (OTuple [typing.List; OTuple [OClass builtins.str]]) tables
  = (Raise (TranspileError (OClass builtins.str)), tables).
Proof.
  apply (container_child_error_propagates tables typing.List
           (fun x => Ok (Str (types.ARRAY ++ "<" ++ format x ++ ">"))));
    reflexivity.
Defined.

Lemma container_without_children_raises_IndexError_witness :
  TypeTranspiler_transpile (OGeneric typing.List []) tables = (Raise IndexError, tables).
Proof.
  apply (container_without_children_raises_IndexError typing_inspect.get_origin
           typing_inspect.get_args tables (OGeneric typing.List []) typing.List
           (fun x => Ok (Str (types.ARRAY ++ "<" ++ format x ++ ">"))));
    reflexivity.
Defined.

Lemma registered_origin_alone_raises_IndexError_witness :
  _transpile (OTuple [typing.Union]) tables = (Raise IndexError, tables).
Proof.
  apply registered_origin_alone_raises_IndexError; [reflexivity | left; reflexivity].
Defined.

Lemma composite_joins_children_in_order_witness :
  _transpile
    (OTuple [OClass tuple;
             OTuple [OClass example.User; OClass example.Group; OClass example.User]])
    tables
  = (Ok (Str "User, Group, User"), tables).
Proof.
  apply (composite_joins_children_in_order (OClass tuple) ", "
           [OClass example.User; OClass example.Group; OClass example.User]
           ["User"; "Group"; "User"] []).
  - left. reflexivity.
  - repeat constructor.
Defined.

Lemma composite_raises_first_child_error_witness :
  _transpile
    (OTuple [typing.Union;
             OTuple [OClass example.User; OClass builtins.str; OClass example.Group]])
    tables
  = (Raise (TranspileError (OClass builtins.str)), tables).
Proof.
  apply (composite_raises_first_child_error tables typing.Union
           (fun x => join " | " x) [OClass example.User] (OClass builtins.str)
           [OClass example.Group] [Str "User"] []).
  - reflexivity.
  - reflexivity.
  - repeat constructor.
  - reflexivity.
Defined.

Lemma composite_with_None_child_raises_TypeError_witness :
  _transpile
    (OTuple [typing.Union;
             OTuple [OTuple [example.Mapping; OTuple []]; OClass example.User]])
    tables
  = (Raise TypeError, tables).
Proof.
  apply (composite_with_None_child_raises_TypeError typing.Union " | "
           [OTuple [example.Mapping; OTuple []]; OClass example.User]
           [NoneResult; Str "User"] []).
  - right. left. reflexivity.
  - repeat constructor.
  - left. reflexivity.
Defined.

Lemma plain_class_descriptor_raises_witness :
  TypeTranspiler_transpile (OClass builtins.int) tables
  = (Raise (TranspileError (OClass builtins.int)), tables).
Proof.
  apply (plain_class_descriptor_raises typing_inspect.get_origin typing_inspect.get_args
           builtins.int); reflexivity.
Defined.

Lemma _transpile_unregistered_witness :
  _transpile (OTuple [example.Set_; OTuple [OClass example.User]]) tables
  = (Ok NoneResult, tables).
Proof. apply _transpile_unregistered; reflexivity. Defined.

(** A dict instance is rendered as "object" when it is the descriptor, and
    raises [TypeError] when it heads a dispatched tuple: the membership test
    of the composite table hashes it. *)
Example dict_instance_renders_as_object :
  TypeTranspiler_transpile (OSeq builtins.dict []) tables = (Ok (Str "object"), tables).
Proof. reflexivity. Qed.

Example dict_instance_in_tuple_raises_TypeError :
  _transpile (OTuple [OSeq builtins.dict []]) tables = (Raise TypeError, tables) /\
  _transpile (OTuple [typing.List; OTuple [OSeq builtins.dict []]]) tables
  = (Raise TypeError, tables).
Proof. split; reflexivity. Qed.

(** The children of a composite node may come in a list. *)
Example union_over_a_list_of_children :
  _transpile
    (OTuple [typing.Union;
             OSeq builtins.list [OClass example.User; OClass example.Group]])
    tables
  = (Ok (Str "User | Group"), tables).
Proof. reflexivity. Qed.

End FurtherInstances.
